(** * NotificationService: a shallow embedding of [src/utils/NotificationService.ts]

    The module is a conditional dispatch over the platform identity followed
    by calls into the host (the expo-notifications module on native
    platforms, the browser Notification API and [setTimeout] on web, and
    [console.warn]).  The embedding keeps the module's own state (the flag
    [notificationHandlerInitialized]) and a chronological log of every call
    made into the host; the host's answers are a parameter. *)

From Stdlib Require Import String List Bool Arith Lia Floats.
Import ListNotations.
Open Scope string_scope.
Open Scope list_scope.

Module NotificationService.

(** ** Values exchanged with the host *)

(** A thrown JavaScript value (or the reason of a rejected promise). *)
Definition JsError : Type := string.

(** What a call into the host does: it returns, or it throws (an awaited
    promise that rejects throws at the [await]). *)
Inductive outcome (A : Type) : Type :=
| Returns (a : A)
| Throws (e : JsError).
Arguments Returns {A} a.
Arguments Throws {A} e.

(** The object [require('expo-notifications')] evaluates to. *)
Definition Handle : Type := nat.

(** The value of [Notifications.SchedulableTriggerInputTypes.TIME_INTERVAL]. *)
Definition TriggerType : Type := string.

(** What the registered [handleNotification] resolves to. *)
Record NotificationBehavior : Type := {
  shouldPlaySound : bool;
  shouldSetBadge : bool;
  shouldShowBanner : bool;
  shouldShowList : bool
}.

Record NotificationContent : Type := {
  title : string;
  body : string
}.

(** [trigger: null], or the object literal built by [scheduleNotification]. *)
Inductive Trigger : Type :=
| TriggerNull
| TriggerInput (type : TriggerType) (seconds : float) (repeats : bool).

Record NotificationRequest : Type := {
  content : NotificationContent;
  trigger : Trigger
}.

(** The browser's [NotificationOptions]; the module only ever fills [body]. *)
Record NotificationOptions : Type := {
  opt_body : string;
  opt_icon : option string
}.

(** The closure handed to [setTimeout], defunctionalised: the only closure
    the module creates is [() => { sendWebNotification(title, body) }]. *)
Inductive Callback : Type :=
| SendWebCallback (title body : string).

(** One entry of the log per call into the host, with what the call did. *)
Inductive Event : Type :=
| EvRequire (r : outcome (option Handle))
| EvSetNotificationHandler (n : Handle) (b : NotificationBehavior) (r : outcome unit)
| EvRequestPermissionsAsync (n : Handle) (r : outcome string)
| EvScheduleNotificationAsync (n : Handle) (req : NotificationRequest) (r : outcome unit)
| EvRequestPermission (r : outcome unit)
| EvNewNotification (title : string) (options : NotificationOptions) (r : outcome unit)
| EvSetTimeout (cb : Callback) (ms : float)
| EvWarn (msg : string) (err : option JsError).

(** The host.  Every answer may depend on everything the module has done so
    far (the log), so that a host whose permission changes after a request,
    or whose calls fail now and succeed later, is an instance.  Property
    reads ([Platform.OS], ['Notification' in window],
    [Notification.permission], the trigger-type constant) are not logged;
    [require] can return a falsy value ([Returns None]). *)
Record Host : Type := {
  Platform_OS : string;
  require_expo_notifications : list Event -> outcome (option Handle);
  setNotificationHandler :
    Handle -> NotificationBehavior -> list Event -> outcome unit;
  requestPermissionsAsync : Handle -> list Event -> outcome string;
  TIME_INTERVAL : Handle -> outcome TriggerType;
  scheduleNotificationAsync :
    Handle -> NotificationRequest -> list Event -> outcome unit;
  window_has_Notification : list Event -> bool;
  Notification_permission : list Event -> string;
  Notification_requestPermission : list Event -> outcome unit;
  new_Notification : string -> NotificationOptions -> list Event -> outcome unit
}.

(** ** The process state *)

Record World : Type := {
  notificationHandlerInitialized : bool;
  trace : list Event;
  timers : list (float * Callback)
}.

(** [let notificationHandlerInitialized = false;] and nothing done yet. *)
Definition init_world : World :=
  {| notificationHandlerInitialized := false; trace := []; timers := [] |}.

Definition log (e : Event) (w : World) : World :=
  {| notificationHandlerInitialized := notificationHandlerInitialized w;
     trace := trace w ++ [e];
     timers := timers w |}.

(** ** The monad of the module: state, and exceptions *)

Definition M (A : Type) : Type := World -> outcome A * World.

Definition ret {A : Type} (a : A) : M A := fun w => (Returns a, w).

Definition bind {A B : Type} (m : M A) (k : A -> M B) : M B :=
  fun w =>
    match m w with
    | (Returns a, w') => k a w'
    | (Throws e, w') => (Throws e, w')
    end.

(** [try { body } catch (error) { handler }] *)
Definition try_catch {A : Type} (body : M A) (handler : JsError -> M A) : M A :=
  fun w =>
    match body w with
    | (Returns a, w') => (Returns a, w')
    | (Throws e, w') => handler e w'
    end.

Notation "x <- c1 ;; c2" := (bind c1 (fun x => c2))
  (at level 61, c1 at next level, right associativity).
Notation "c1 ;; c2" := (bind c1 (fun _ => c2))
  (at level 61, right associativity).

(** A call into the host: ask the host what happens, log it. *)
Definition perform {A : Type}
    (answer : list Event -> outcome A) (ev : outcome A -> Event) : M A :=
  fun w => let r := answer (trace w) in (r, log (ev r) w).

(** A property read: the host's current value, nothing logged. *)
Definition read {A : Type} (value : list Event -> A) : M A :=
  fun w => (Returns (value (trace w)), w).

Definition of_outcome {A : Type} (r : outcome A) : M A := fun w => (r, w).

Definition console_warn (msg : string) (err : option JsError) : M unit :=
  fun w => (Returns tt, log (EvWarn msg err) w).

Definition get_initialized : M bool :=
  fun w => (Returns (notificationHandlerInitialized w), w).

Definition set_initialized (b : bool) : M unit :=
  fun w => (Returns tt,
            {| notificationHandlerInitialized := b;
               trace := trace w;
               timers := timers w |}).

(** [setTimeout(cb, ms)]: the timer is armed; its identifier is dropped. *)
Definition setTimeout (cb : Callback) (ms : float) : M unit :=
  fun w => (Returns tt,
            {| notificationHandlerInitialized := notificationHandlerInitialized w;
               trace := trace w ++ [EvSetTimeout cb ms];
               timers := timers w ++ [(ms, cb)] |}).

(** ** The messages handed to [console.warn] *)

Definition WARN_NOT_SUPPORTED : string :=
  "Browser notifications not supported".

Definition WARN_PERMISSION_DENIED : string :=
  "Notification permission denied".

Definition WARN_WEB_FAILED : string :=
  "Failed to send web notification:".

Definition WARN_NOT_AVAILABLE : string :=
  "Notifications not available on this platform".

Definition WARN_NOT_GRANTED : string :=
  "Notification permissions not granted".

Definition WARN_SEND_FAILED : string :=
  "Failed to send local notification. Note: Notifications may not work in Expo Go. Use a development build for full functionality.".

Definition WARN_SCHEDULE_FAILED : string :=
  "Failed to schedule notification. Note: Notifications may not work in Expo Go. Use a development build for full functionality.".

(** ** The module *)

Section Service.

Variable host : Host.

(** [Platform.OS === 'web'] *)
Definition on_web : bool := String.eqb (Platform_OS host) "web".

Definition getNotifications : M (option Handle) :=
  if on_web then ret None
  else
    try_catch
      (perform (require_expo_notifications host) EvRequire)
      (fun _ => ret None).

(** The options every registered handler resolves to. *)
Definition foreground_behavior : NotificationBehavior :=
  {| shouldPlaySound := true;
     shouldSetBadge := false;
     shouldShowBanner := true;
     shouldShowList := true |}.

Definition initializeNotificationHandler (Notifications : option Handle) : M unit :=
  initialized <- get_initialized ;;
  match Notifications with
  | Some n =>
      if initialized || on_web then ret tt
      else
        try_catch
          (perform (setNotificationHandler host n foreground_behavior)
                   (EvSetNotificationHandler n foreground_behavior) ;;
           set_initialized true)
          (fun _ => ret tt)
  | None => ret tt
  end.

Definition sendWebNotification (title body : string) : M unit :=
  supported <- read (window_has_Notification host) ;;
  if negb supported then
    console_warn WARN_NOT_SUPPORTED None
  else
    try_catch
      (permission <- read (Notification_permission host) ;;
       (if String.eqb permission "default"
        then perform (Notification_requestPermission host) EvRequestPermission
        else ret tt) ;;
       permission <- read (Notification_permission host) ;;
       if String.eqb permission "granted" then
         let notificationOptions := {| opt_body := body; opt_icon := None |} in
         perform (new_Notification host title notificationOptions)
                 (EvNewNotification title notificationOptions)
       else
         console_warn WARN_PERMISSION_DENIED None)
      (fun error =>
         console_warn WARN_WEB_FAILED (Some error)).

Definition sendLocalNotification (title body : string) : M unit :=
  if on_web then sendWebNotification title body
  else
    Notifications <- getNotifications ;;
    match Notifications with
    | None => console_warn WARN_NOT_AVAILABLE None
    | Some n =>
        try_catch
          (initializeNotificationHandler (Some n) ;;
           status <- perform (requestPermissionsAsync host n)
                             (EvRequestPermissionsAsync n) ;;
           if negb (String.eqb status "granted") then
             console_warn WARN_NOT_GRANTED None
           else
             let request :=
               {| content := {| title := title; body := body |};
                  trigger := TriggerNull |} in
             perform (scheduleNotificationAsync host n request)
                     (EvScheduleNotificationAsync n request))
          (fun _ =>
             console_warn
               WARN_SEND_FAILED
               None)
    end.

Definition scheduleNotification (title body : string) (seconds : float) : M unit :=
  if on_web then
    setTimeout (SendWebCallback title body) (PrimFloat.mul seconds 1000%float)
  else
    Notifications <- getNotifications ;;
    match Notifications with
    | None => console_warn WARN_NOT_AVAILABLE None
    | Some n =>
        try_catch
          (initializeNotificationHandler (Some n) ;;
           status <- perform (requestPermissionsAsync host n)
                             (EvRequestPermissionsAsync n) ;;
           if negb (String.eqb status "granted") then
             console_warn WARN_NOT_GRANTED None
           else
             type <- of_outcome (TIME_INTERVAL host n) ;;
             let trigger :=
               TriggerInput type seconds false in
             let request :=
               {| content := {| title := title; body := body |};
                  trigger := trigger |} in
             perform (scheduleNotificationAsync host n request)
                     (EvScheduleNotificationAsync n request))
          (fun _ =>
             console_warn
               WARN_SCHEDULE_FAILED
               None)
    end.

(** What a timer does when the host fires it. *)
Definition run_callback (cb : Callback) : M unit :=
  match cb with
  | SendWebCallback title body => sendWebNotification title body
  end.

(** ** One process lifetime

    The module is driven from outside: a caller invokes one of the two
    exported operations, or the host fires an armed timer.  A process
    lifetime is a list of such actions run from [init_world].  Both
    operations are [async]; [initializeNotificationHandler] contains no
    [await], so its test-and-set of the flag is one uninterrupted step. *)

Inductive Action : Type :=
| CallSendLocalNotification (title body : string)
| CallScheduleNotification (title body : string) (seconds : float)
| FireTimer (k : nat).

Definition drop_timer (k : nat) (w : World) : World :=
  {| notificationHandlerInitialized := notificationHandlerInitialized w;
     trace := trace w;
     timers := firstn k (timers w) ++ skipn (S k) (timers w) |}.

Definition step (a : Action) : M unit :=
  match a with
  | CallSendLocalNotification title body => sendLocalNotification title body
  | CallScheduleNotification title body seconds =>
      scheduleNotification title body seconds
  | FireTimer k =>
      fun w =>
        match nth_error (timers w) k with
        | Some (_, cb) => run_callback cb (drop_timer k w)
        | None => (Returns tt, w)
        end
  end.

Fixpoint run (acts : list Action) (w : World) : World :=
  match acts with
  | [] => w
  | a :: rest => run rest (snd (step a w))
  end.

(** The log at the moment a native operation requests permission: the
    module has been resolved to [n] and the handler registration has been
    attempted unless the flag was already set. *)
Definition log_before_permission_request (n : Handle) (w : World) : list Event :=
  let resolved := trace w ++ [EvRequire (Returns (Some n))] in
  if notificationHandlerInitialized w then resolved
  else
    resolved ++
      [EvSetNotificationHandler n foreground_behavior
         (setNotificationHandler host n foreground_behavior resolved)].

(** The log at the moment the web path reads the permission for the second
    time: the browser has been asked when the permission was ['default']. *)
Definition log_after_permission_request (w : World) : list Event :=
  if String.eqb (Notification_permission host (trace w)) "default"
  then trace w ++ [EvRequestPermission (Notification_requestPermission host (trace w))]
  else trace w.

(** The browser's permission request, when one is made, returns. *)
Definition permission_request_returned (w : World) : Prop :=
  Notification_permission host (trace w) <> "default" \/
  Notification_requestPermission host (trace w) = Returns tt.

(** The permission is denied at [w].  On web: the browser has the
    Notification API and reports ['denied'].  On a native platform: the
    module resolves and the permission request returns a status other than
    ['granted']. *)
Definition permission_denied (w : World) : Prop :=
  if on_web then
    window_has_Notification host (trace w) = true /\
    Notification_permission host (trace w) = "denied"
  else
    exists (n : Handle) (status : string),
      require_expo_notifications host (trace w) = Returns (Some n) /\
      requestPermissionsAsync host n (log_before_permission_request n w) =
        Returns status /\
      status <> "granted".

End Service.

(** ** Reading the log *)

(** What an operation appended to the log. *)
Definition new_events (w w' : World) : list Event :=
  skipn (length (trace w)) (trace w').

Fixpoint warnings (l : list Event) : list (string * option JsError) :=
  match l with
  | [] => []
  | EvWarn msg err :: l' => (msg, err) :: warnings l'
  | _ :: l' => warnings l'
  end.

(** The [scheduleNotificationAsync] calls, in order. *)
Fixpoint schedule_calls (l : list Event) : list (Handle * NotificationRequest) :=
  match l with
  | [] => []
  | EvScheduleNotificationAsync n req _ :: l' => (n, req) :: schedule_calls l'
  | _ :: l' => schedule_calls l'
  end.

(** The [new Notification(title, options)] calls, in order. *)
Fixpoint display_calls (l : list Event) : list (string * NotificationOptions) :=
  match l with
  | [] => []
  | EvNewNotification title options _ :: l' => (title, options) :: display_calls l'
  | _ :: l' => display_calls l'
  end.

(** The number of [Notification.requestPermission()] calls. *)
Fixpoint permission_requests (l : list Event) : nat :=
  match l with
  | [] => 0
  | EvRequestPermission _ :: l' => S (permission_requests l')
  | _ :: l' => permission_requests l'
  end.

Definition is_registration (e : Event) : bool :=
  match e with EvSetNotificationHandler _ _ _ => true | _ => false end.

Definition is_successful_registration (e : Event) : bool :=
  match e with EvSetNotificationHandler _ _ (Returns _) => true | _ => false end.

Definition is_require (e : Event) : bool :=
  match e with EvRequire _ => true | _ => false end.

(** A call into a notification API, native or browser. *)
Definition is_api_call (e : Event) : bool :=
  match e with
  | EvSetNotificationHandler _ _ _
  | EvRequestPermissionsAsync _ _
  | EvScheduleNotificationAsync _ _ _
  | EvRequestPermission _
  | EvNewNotification _ _ _ => true
  | EvRequire _ | EvSetTimeout _ _ | EvWarn _ _ => false
  end.

(** A call into the host that threw. *)
Definition is_failure (e : Event) : bool :=
  match e with
  | EvRequire (Throws _)
  | EvSetNotificationHandler _ _ (Throws _)
  | EvRequestPermissionsAsync _ (Throws _)
  | EvScheduleNotificationAsync _ _ (Throws _)
  | EvRequestPermission (Throws _)
  | EvNewNotification _ _ (Throws _) => true
  | _ => false
  end.

Definition registration_calls (l : list Event) : nat :=
  length (filter is_registration l).

Definition successful_registrations (l : list Event) : nat :=
  length (filter is_successful_registration l).

Definition require_calls (l : list Event) : nat :=
  length (filter is_require l).

Definition api_calls (l : list Event) : list Event := filter is_api_call l.

Definition failed_calls (l : list Event) : list Event := filter is_failure l.

(** The failed calls other than the handler registration. *)
Definition reported_failures (l : list Event) : list Event :=
  filter (fun e => negb (is_registration e)) (failed_calls l).

(** Every failed call is answered by a logged warning. *)
Definition failures_are_warned (l : list Event) : Prop :=
  failed_calls l <> [] -> warnings l <> [].

(** The last entry an operation logged, if it logged any. *)
Definition last_event (l : list Event) : option Event := hd_error (rev l).

Definition is_call (a : Action) : bool :=
  match a with FireTimer _ => false | _ => true end.

(** The module could not be resolved: [require] threw or gave no handle. *)
Definition unresolved (r : outcome (option Handle)) : Prop :=
  match r with Returns (Some _) => False | _ => True end.

(** A call into the expo-notifications module, or its [require]. *)
Definition is_native_call (e : Event) : bool :=
  match e with
  | EvRequire _
  | EvSetNotificationHandler _ _ _
  | EvRequestPermissionsAsync _ _
  | EvScheduleNotificationAsync _ _ _ => true
  | _ => false
  end.

(** A call into the browser: the Notification API or [setTimeout]. *)
Definition is_browser_call (e : Event) : bool :=
  match e with
  | EvRequestPermission _
  | EvNewNotification _ _ _
  | EvSetTimeout _ _ => true
  | _ => false
  end.

Definition is_native_permission_request (e : Event) : bool :=
  match e with EvRequestPermissionsAsync _ _ => true | _ => false end.

(** The number of [requestPermissionsAsync()] calls. *)
Definition native_permission_requests (l : list Event) : nat :=
  length (filter is_native_permission_request l).

(** The behaviours handed to [setNotificationHandler], in order. *)
Fixpoint registered_behaviors (l : list Event) : list NotificationBehavior :=
  match l with
  | [] => []
  | EvSetNotificationHandler _ b _ :: l' => b :: registered_behaviors l'
  | _ :: l' => registered_behaviors l'
  end.



(** The title and body a caller passed. *)
Definition requested (a : Action) : list (string * string) :=
  match a with
  | CallSendLocalNotification title body => [(title, body)]
  | CallScheduleNotification title body _ => [(title, body)]
  | FireTimer _ => []
  end.

(** The title and body a pending timer will display. *)
Definition captured (t : float * Callback) : string * string :=
  match snd t with SendWebCallback title body => (title, body) end.

(** The title and body of a schedule call, and of a display call. *)
Definition scheduled_text (c : Handle * NotificationRequest) : string * string :=
  (title (content (snd c)), body (content (snd c))).

Definition displayed_text (c : string * NotificationOptions) : string * string :=
  (fst c, opt_body (snd c)).

(** The text a world can still put on screen: what the log shows and what
    the pending timers hold all comes from [seen]. *)
Definition texts_from (seen : list (string * string)) (w : World) : Prop :=
  Forall (fun c => In (scheduled_text c) seen) (schedule_calls (trace w)) /\
  Forall (fun c => In (displayed_text c) seen /\ opt_icon (snd c) = None)
    (display_calls (trace w)) /\
  Forall (fun t => In (captured t) seen) (timers w).

(** The notification was handed to the platform: a schedule call or a
    [Notification] constructor returned, or a timer was armed. *)
Definition handed_over (e : Event) : bool :=
  match e with
  | EvScheduleNotificationAsync _ _ (Returns _)
  | EvNewNotification _ _ (Returns _)
  | EvSetTimeout _ _ => true
  | _ => false
  end.

(** ** Hosts to evaluate the module on *)

Module Hosts.

(** A native host ([Platform.OS] is ['ios']) whose module resolves to the
    handle [7]; the answers of the registration, of the permission request
    and of the schedule call are given. *)
Definition native (registration : outcome unit) (status : outcome string)
    (scheduled : outcome unit) : Host :=
  {| Platform_OS := "ios";
     require_expo_notifications := fun _ => Returns (Some 7);
     setNotificationHandler := fun _ _ _ => registration;
     requestPermissionsAsync := fun _ _ => status;
     TIME_INTERVAL := fun _ => Returns "timeInterval";
     scheduleNotificationAsync := fun _ _ _ => scheduled;
     window_has_Notification := fun _ => false;
     Notification_permission := fun _ => "default";
     Notification_requestPermission := fun _ => Throws "ReferenceError";
     new_Notification := fun _ _ _ => Throws "ReferenceError" |}.

(** A device that grants the permission and on which every call succeeds. *)
Definition device : Host := native (Returns tt) (Returns "granted") (Returns tt).

(** Expo Go: the handler registration throws, the rest succeeds. *)
Definition expo_go : Host :=
  native (Throws "not available in Expo Go") (Returns "granted") (Returns tt).

(** A device whose user refuses the permission. *)
Definition refusing_device : Host :=
  native (Returns tt) (Returns "denied") (Returns tt).

(** A native host on which [require('expo-notifications')] throws. *)
Definition unbundled : Host :=
  {| Platform_OS := "android";
     require_expo_notifications := fun _ => Throws "Cannot find module";
     setNotificationHandler := fun _ _ _ => Returns tt;
     requestPermissionsAsync := fun _ _ => Returns "granted";
     TIME_INTERVAL := fun _ => Returns "timeInterval";
     scheduleNotificationAsync := fun _ _ _ => Returns tt;
     window_has_Notification := fun _ => false;
     Notification_permission := fun _ => "default";
     Notification_requestPermission := fun _ => Throws "ReferenceError";
     new_Notification := fun _ _ _ => Throws "ReferenceError" |}.

Definition asked (l : list Event) : bool :=
  existsb (fun e => match e with EvRequestPermission _ => true | _ => false end) l.

(** A browser: the permission is [before] until the user has been asked and
    [after] from then on. *)
Definition browser (supported : bool) (before after : string) : Host :=
  {| Platform_OS := "web";
     require_expo_notifications := fun _ => Throws "not bundled on web";
     setNotificationHandler := fun _ _ _ => Throws "unsupported";
     requestPermissionsAsync := fun _ _ => Throws "unsupported";
     TIME_INTERVAL := fun _ => Throws "TypeError";
     scheduleNotificationAsync := fun _ _ _ => Throws "unsupported";
     window_has_Notification := fun _ => supported;
     Notification_permission := fun l => if asked l then after else before;
     Notification_requestPermission := fun _ => Returns tt;
     new_Notification := fun _ _ _ => Returns tt |}.

(** A browser in which the user has blocked notifications. *)
Definition blocked_browser : Host := browser true "denied" "denied".

(** A browser that has not asked yet and whose user will accept. *)
Definition fresh_browser : Host := browser true "default" "granted".

(** A browser without the Notification API. *)
Definition old_browser : Host := browser false "default" "default".

(** A device on which the schedule call is rejected. *)
Definition failing_device : Host :=
  native (Returns tt) (Returns "granted") (Throws "ERR_NOTIFICATIONS").

(** A device whose expo-notifications has no [SchedulableTriggerInputTypes]:
    reading [TIME_INTERVAL] off it throws. *)
Definition legacy_module : Host :=
  {| Platform_OS := "android";
     require_expo_notifications := fun _ => Returns (Some 3);
     setNotificationHandler := fun _ _ _ => Returns tt;
     requestPermissionsAsync := fun _ _ => Returns "granted";
     TIME_INTERVAL := fun _ => Throws "TypeError";
     scheduleNotificationAsync := fun _ _ _ => Returns tt;
     window_has_Notification := fun _ => false;
     Notification_permission := fun _ => "default";
     Notification_requestPermission := fun _ => Throws "ReferenceError";
     new_Notification := fun _ _ _ => Throws "ReferenceError" |}.

(** A browser that has granted the permission and whose [Notification]
    constructor throws, and one whose permission request is rejected. *)
Definition picky_browser (permission : string) (request : outcome unit) : Host :=
  {| Platform_OS := "web";
     require_expo_notifications := fun _ => Throws "not bundled on web";
     setNotificationHandler := fun _ _ _ => Throws "unsupported";
     requestPermissionsAsync := fun _ _ => Throws "unsupported";
     TIME_INTERVAL := fun _ => Throws "TypeError";
     scheduleNotificationAsync := fun _ _ _ => Throws "unsupported";
     window_has_Notification := fun _ => true;
     Notification_permission := fun _ => permission;
     Notification_requestPermission := fun _ => request;
     new_Notification := fun _ _ _ => Throws "Illegal constructor" |}.

Definition illegal_constructor_browser : Host :=
  picky_browser "granted" (Returns tt).

Definition rejecting_browser : Host :=
  picky_browser "default" (Throws "AbortError").

End Hosts.

(** * Properties *)

Section Facts.

Lemma skipn_length_app (A : Type) (l d : list A) :
  skipn (length l) (l ++ d) = d.
Proof.
  induction l as [| x l IH]; simpl; [reflexivity | exact IH].
Qed.

End Facts.

(** Unfold the module down to the host's answers, and split on them. *)
Ltac unfold_service :=
  unfold run_callback, sendLocalNotification, scheduleNotification,
    sendWebNotification, getNotifications, initializeNotificationHandler,
    setTimeout, try_catch, bind, perform, read, ret, of_outcome,
    console_warn, get_initialized, set_initialized, log, drop_timer in *.

Ltac split_on_answers :=
  cbv beta iota zeta;
  cbn [fst snd negb orb trace notificationHandlerInitialized timers];
  repeat match goal with
         | |- context [match ?x with _ => _ end] =>
             lazymatch x with
             | context [match _ with _ => _ end] => fail
             | _ =>
                 let E := fresh "E" in
                 destruct x eqn:E; cbv beta iota zeta;
                 cbn [fst snd negb orb trace notificationHandlerInitialized timers]
             end
         end.

Ltac destruct_units :=
  repeat match goal with u : unit |- _ => destruct u end.

(** Put [new_events w w'] in the form of the list it is. *)
Ltac read_log :=
  unfold new_events, log, drop_timer;
  cbn [trace notificationHandlerInitialized timers fst snd];
  rewrite <- ?app_assoc; cbn [app];
  rewrite ?skipn_length_app, ?skipn_all.

(** C1 (as amended).  Neither operation ever throws: every failure of a
    call into the host is caught and the operation returns normally, having
    logged at most one warning.  A failure of any call other than the
    handler registration ends in exactly one logged warning, the last thing
    the operation does; a throwing [setNotificationHandler] is caught
    without a warning of its own. *)
Theorem operations_never_throw
    (h : Host) (title body : string) (seconds : float) (w : World) :
  let r1 := sendLocalNotification h title body w in
  let r2 := scheduleNotification h title body seconds w in
  fst r1 = Returns tt /\
  fst r2 = Returns tt /\
  (forall r, r = r1 \/ r = r2 ->
     length (warnings (new_events w (snd r))) <= 1 /\
     (reported_failures (new_events w (snd r)) <> [] ->
      exists msg err,
        warnings (new_events w (snd r)) = [(msg, err)] /\
        last_event (new_events w (snd r)) = Some (EvWarn msg err))).
Proof.
  cbv zeta. split; [| split].
  - unfold_service. split_on_answers; destruct_units; reflexivity.
  - unfold_service. split_on_answers; destruct_units; reflexivity.
  - intros r Hr. split.
    + destruct Hr as [-> | ->]; unfold_service; split_on_answers; read_log;
        cbn; lia.
    + destruct Hr as [-> | ->]; unfold_service; split_on_answers; read_log;
        intros F; cbn in F |- *;
        solve [ exfalso; apply F; reflexivity
              | eexists _, _; split; reflexivity ].
Qed.

(** C1 (as stated).  On Expo Go the handler registration throws; the
    failure is swallowed and the notification is scheduled, so a call into
    the host failed and no warning was logged. *)
Lemma registration_failure_is_silent :
  ~ failures_are_warned
      (new_events init_world
         (snd (sendLocalNotification Hosts.expo_go "t" "b" init_world))).
Proof.
  unfold failures_are_warned. cbn. intros F. apply F; [discriminate | reflexivity].
Qed.

(** ** Native platforms *)

(** Rewrite with a known answer of the host, after reducing up to it. *)
Ltac step_with H :=
  cbv beta iota zeta;
  cbn [fst snd negb orb trace notificationHandlerInitialized timers];
  rewrite ?H.

(** C3.  On a native platform where the module resolves to [n] and the
    permission request returns ['granted'], [sendLocalNotification] makes
    exactly one schedule call, with [trigger: null] and the given title and
    body; [scheduleNotification] makes exactly one schedule call, with the
    time-interval trigger of the given seconds, [repeats: false], and the
    given title and body. *)
Theorem native_granted_schedules_once
    (h : Host) (title body : string) (seconds : float) (n : Handle) (w : World) :
  on_web h = false ->
  require_expo_notifications h (trace w) = Returns (Some n) ->
  requestPermissionsAsync h n (log_before_permission_request h n w) =
    Returns "granted" ->
  schedule_calls (new_events w (snd (sendLocalNotification h title body w))) =
    [(n, {| content := {| title := title; body := body |};
            trigger := TriggerNull |})] /\
  (forall type : TriggerType,
     TIME_INTERVAL h n = Returns type ->
     schedule_calls
       (new_events w (snd (scheduleNotification h title body seconds w))) =
       [(n, {| content := {| title := title; body := body |};
               trigger := TriggerInput type seconds false |})]).
Proof.
  destruct w as [flag tr tm]. intros Hweb Hreq Hperm.
  unfold log_before_permission_request in Hperm.
  cbn [trace notificationHandlerInitialized] in *.
  split; [| intros type Hty].
  - unfold_service. step_with Hweb. step_with Hreq. step_with Hweb.
    destruct flag; cbn [orb].
    + step_with Hperm. cbn. split_on_answers; read_log; reflexivity.
    + destruct (setNotificationHandler _ _ _ _) eqn:E; step_with Hperm; cbn;
        split_on_answers; read_log; reflexivity.
  - unfold_service. step_with Hweb. step_with Hreq. step_with Hweb.
    destruct flag; cbn [orb].
    + step_with Hperm. cbn. step_with Hty.
      split_on_answers; read_log; reflexivity.
    + destruct (setNotificationHandler _ _ _ _) eqn:E; step_with Hperm; cbn;
        step_with Hty; split_on_answers; read_log; reflexivity.
Qed.

Lemma native_granted_schedules_once_on_device :
  schedule_calls
    (new_events init_world
       (snd (sendLocalNotification Hosts.device "Hello" "World" init_world))) =
    [(7, {| content := {| title := "Hello"; body := "World" |};
            trigger := TriggerNull |})] /\
  (forall type : TriggerType,
     TIME_INTERVAL Hosts.device 7 = Returns type ->
     schedule_calls
       (new_events init_world
          (snd (scheduleNotification Hosts.device "Hello" "World" 5%float
                  init_world))) =
       [(7, {| content := {| title := "Hello"; body := "World" |};
               trigger := TriggerInput type 5%float false |})]).
Proof.
  apply (native_granted_schedules_once Hosts.device "Hello" "World" 5%float 7
           init_world); reflexivity.
Defined.

(** C5.  On a native platform where the [require] throws or gives no
    handle, both operations log the one warning and call nothing of the
    notification API: no registration, no permission request, no schedule
    call. *)
Theorem unresolved_module_calls_nothing
    (h : Host) (title body : string) (seconds : float) (w : World) :
  on_web h = false ->
  unresolved (require_expo_notifications h (trace w)) ->
  let gone :=
    (Returns tt,
     log (EvWarn WARN_NOT_AVAILABLE None)
       (log (EvRequire (require_expo_notifications h (trace w))) w)) in
  sendLocalNotification h title body w = gone /\
  scheduleNotification h title body seconds w = gone /\
  api_calls (new_events w (snd gone)) = [] /\
  warnings (new_events w (snd gone)) = [(WARN_NOT_AVAILABLE, None)].
Proof.
  destruct w as [flag tr tm]. intros Hweb U. cbv zeta.
  cbn [trace] in *.
  destruct (require_expo_notifications h tr) as [[n |] | e] eqn:Hreq;
    [destruct U | |];
    (repeat split;
     [ unfold_service; step_with Hweb; step_with Hreq; reflexivity
     | unfold_service; step_with Hweb; step_with Hreq; reflexivity
     | read_log; reflexivity
     | read_log; reflexivity ]).
Qed.

Lemma unresolved_module_calls_nothing_when_unbundled :
  let gone :=
    (Returns tt,
     log (EvWarn WARN_NOT_AVAILABLE None)
       (log (EvRequire (Throws "Cannot find module")) init_world)) in
  sendLocalNotification Hosts.unbundled "Hello" "World" init_world = gone /\
  scheduleNotification Hosts.unbundled "Hello" "World" 5%float init_world = gone /\
  api_calls (new_events init_world (snd gone)) = [] /\
  warnings (new_events init_world (snd gone)) = [(WARN_NOT_AVAILABLE, None)].
Proof.
  apply (unresolved_module_calls_nothing Hosts.unbundled "Hello" "World"
           5%float init_world); [reflexivity | exact I].
Defined.

(** C4 (as stated).  In a browser that has blocked notifications,
    [scheduleNotification] returns having logged no warning. *)
Lemma blocked_browser_schedule_logs_no_warning :
  permission_denied Hosts.blocked_browser init_world /\
  length
    (warnings
       (new_events init_world
          (snd (scheduleNotification Hosts.blocked_browser "t" "b" 5%float
                  init_world)))) <> 1.
Proof.
  split; [split; reflexivity | vm_compute; discriminate].
Qed.

(** C4 (as amended).  When the permission is denied, neither operation
    makes a display or schedule call.  [sendLocalNotification] on every
    platform, and [scheduleNotification] on a native platform, log exactly
    one warning.  [scheduleNotification] on web logs nothing when called:
    it only arms the timer, whose callback is the web path of
    [sendLocalNotification]. *)
Theorem denied_permission_displays_nothing
    (h : Host) (title body : string) (seconds : float) (w : World) :
  permission_denied h w ->
  let d1 := new_events w (snd (sendLocalNotification h title body w)) in
  let d2 := new_events w (snd (scheduleNotification h title body seconds w)) in
  let warning :=
    (if on_web h then WARN_PERMISSION_DENIED else WARN_NOT_GRANTED,
     @None JsError) in
  (display_calls d1 = [] /\ schedule_calls d1 = [] /\ warnings d1 = [warning]) /\
  (display_calls d2 = [] /\ schedule_calls d2 = []) /\
  (if on_web h then
     d2 = [EvSetTimeout (SendWebCallback title body)
             (PrimFloat.mul seconds 1000%float)] /\
     (forall w2 : World,
        run_callback h (SendWebCallback title body) w2 =
        sendLocalNotification h title body w2)
   else warnings d2 = [warning]).
Proof.
  destruct w as [flag tr tm]. unfold permission_denied. cbv zeta.
  destruct (on_web h) eqn:Hweb.
  - cbn [trace]. intros [Hsup Hperm].
    repeat split;
      try (intros w2; unfold run_callback, sendLocalNotification;
           rewrite Hweb; reflexivity);
      unfold_service; step_with Hweb; step_with Hsup; step_with Hperm;
        cbn; step_with Hperm; cbn; read_log; reflexivity.
  - intros (n & status & Hreq & Hst & Hne).
    apply String.eqb_neq in Hne.
    unfold log_before_permission_request in Hst.
    cbn [trace notificationHandlerInitialized] in *.
    repeat split;
      unfold_service; step_with Hweb; step_with Hreq; step_with Hweb;
        (destruct flag; cbn [orb];
         [| destruct (setNotificationHandler _ _ _ _) eqn:E ]);
        step_with Hst; cbn [fst snd]; step_with Hne; cbn; read_log;
        reflexivity.
Qed.

Lemma denied_permission_displays_nothing_when_refused :
  let d1 :=
    new_events init_world
      (snd (sendLocalNotification Hosts.refusing_device "Hello" "World"
              init_world)) in
  let d2 :=
    new_events init_world
      (snd (scheduleNotification Hosts.refusing_device "Hello" "World" 5%float
              init_world)) in
  let warning := (WARN_NOT_GRANTED, @None JsError) in
  (display_calls d1 = [] /\ schedule_calls d1 = [] /\ warnings d1 = [warning]) /\
  (display_calls d2 = [] /\ schedule_calls d2 = []) /\
  warnings d2 = [warning].
Proof.
  apply (denied_permission_displays_nothing Hosts.refusing_device
           "Hello" "World" 5%float init_world).
  exists 7, "denied". split; [reflexivity | split; [reflexivity | discriminate]].
Defined.

(** ** The flag and the registration, over a process lifetime *)

Section Lifetime.

Variable h : Host.

Lemma registration_calls_app (l1 l2 : list Event) :
  registration_calls (l1 ++ l2) = registration_calls l1 + registration_calls l2.
Proof. unfold registration_calls. now rewrite filter_app, length_app. Qed.

Lemma successful_registrations_app (l1 l2 : list Event) :
  successful_registrations (l1 ++ l2) =
  successful_registrations l1 + successful_registrations l2.
Proof. unfold successful_registrations. now rewrite filter_app, length_app. Qed.

Lemma require_calls_app (l1 l2 : list Event) :
  require_calls (l1 ++ l2) = require_calls l1 + require_calls l2.
Proof. unfold require_calls. now rewrite filter_app, length_app. Qed.

Lemma run_app (acts1 acts2 : list Action) (w : World) :
  run h (acts1 ++ acts2) w = run h acts2 (run h acts1 w).
Proof.
  revert w. induction acts1 as [| a acts1 IH]; intros w; simpl;
    [reflexivity | apply IH].
Qed.

(** What one action does to the log and to the flag. *)
Lemma step_effect (a : Action) (w : World) :
  let w' := snd (step h a w) in
  let d := new_events w w' in
  trace w' = trace w ++ d /\
  successful_registrations d =
    (if notificationHandlerInitialized w then 0
     else if notificationHandlerInitialized w' then 1 else 0) /\
  (notificationHandlerInitialized w = true ->
     notificationHandlerInitialized w' = true /\ registration_calls d = 0) /\
  require_calls d = (if on_web h then 0 else if is_call a then 1 else 0).
Proof.
  cbv zeta. destruct w as [flag tr tm].
  destruct a as [t b | t b s | k]; unfold step; cbn [is_call].
  - unfold_service; cbn [trace notificationHandlerInitialized timers];
      destruct flag; split_on_answers; read_log; rewrite ?app_nil_r;
      (split; [reflexivity |]); (split; [reflexivity |]);
      (split; [| reflexivity]); try discriminate;
      intros _; split; reflexivity.
  - unfold_service; cbn [trace notificationHandlerInitialized timers];
      destruct flag; split_on_answers; read_log; rewrite ?app_nil_r;
      (split; [reflexivity |]); (split; [reflexivity |]);
      (split; [| reflexivity]); try discriminate;
      intros _; split; reflexivity.
  - cbn [timers]. destruct (nth_error tm k) as [[ms [t b]] |].
    + unfold_service; unfold drop_timer;
        cbn [trace notificationHandlerInitialized timers];
        destruct flag, (on_web h); split_on_answers; read_log;
        rewrite ?app_nil_r;
        (split; [reflexivity |]); (split; [reflexivity |]);
        (split; [| reflexivity]); try discriminate;
        intros _; split; reflexivity.
    + read_log. cbn [snd trace notificationHandlerInitialized].
      rewrite ?skipn_all, app_nil_r.
      destruct flag, (on_web h); repeat split; reflexivity || discriminate.
Qed.

(** The flag is set exactly when one registration call has returned. *)
Lemma flag_counts_successes (acts : list Action) (w : World) :
  successful_registrations (trace w) =
    (if notificationHandlerInitialized w then 1 else 0) ->
  successful_registrations (trace (run h acts w)) =
    (if notificationHandlerInitialized (run h acts w) then 1 else 0).
Proof.
  revert w. induction acts as [| a acts IH]; intros w I; simpl; [exact I |].
  apply IH.
  destruct (step_effect a w) as (T & S & K & _).
  rewrite T, successful_registrations_app, S, I.
  destruct (notificationHandlerInitialized w).
  - destruct (K eq_refl) as [-> _]. reflexivity.
  - reflexivity.
Qed.

(** Once the flag is set it stays set, and no registration call is made. *)
Lemma initialized_is_final (acts : list Action) (w : World) :
  notificationHandlerInitialized w = true ->
  notificationHandlerInitialized (run h acts w) = true /\
  registration_calls (trace (run h acts w)) = registration_calls (trace w).
Proof.
  revert w. induction acts as [| a acts IH]; intros w I; simpl; [now split |].
  destruct (step_effect a w) as (T & _ & K & _).
  destruct (K I) as [I' Z].
  destruct (IH _ I') as [F R]. split; [exact F |].
  rewrite R, T, registration_calls_app, Z. lia.
Qed.

(** Every call of an exported operation on a native platform executes the
    [require] once; nothing else does. *)
Lemma require_per_call (acts : list Action) (w : World) :
  require_calls (trace (run h acts w)) =
  require_calls (trace w) +
    (if on_web h then 0 else length (filter is_call acts)).
Proof.
  revert w. induction acts as [| a acts IH]; intros w; simpl.
  - destruct (on_web h); lia.
  - rewrite IH. destruct (step_effect a w) as (T & _ & _ & Q).
    rewrite T, require_calls_app, Q.
    destruct (on_web h), (is_call a); simpl; lia.
Qed.

End Lifetime.

(** C2 (as stated).  On Expo Go the registration call throws, the flag stays
    unset, and the next operation calls [setNotificationHandler] again: two
    operations make two registration calls. *)
Lemma failed_registration_is_repeated :
  ~ registration_calls
      (trace (run Hosts.expo_go
                [CallSendLocalNotification "a" "b";
                 CallScheduleNotification "c" "d" 5%float]
                init_world)) <= 1.
Proof. vm_compute. lia. Qed.

(** C2 (as amended).  Over any process lifetime at most one
    [setNotificationHandler] call returns without throwing, and once one has
    returned no later operation makes a registration call. *)
Theorem registration_succeeds_at_most_once (h : Host) (acts : list Action) :
  successful_registrations (trace (run h acts init_world)) <= 1 /\
  (forall more : list Action,
     successful_registrations (trace (run h acts init_world)) = 1 ->
     registration_calls (trace (run h (acts ++ more) init_world)) =
     registration_calls (trace (run h acts init_world))).
Proof.
  pose proof (flag_counts_successes h acts init_world eq_refl) as I.
  split.
  - rewrite I. destruct (notificationHandlerInitialized _); lia.
  - intros more S. rewrite run_app.
    apply initialized_is_final.
    rewrite I in S.
    destruct (notificationHandlerInitialized _); [reflexivity | discriminate].
Qed.

(** C6 (as stated).  On a device, two operations execute the [require]
    twice. *)
Lemma require_runs_on_every_call :
  ~ require_calls
      (trace (run Hosts.device
                [CallSendLocalNotification "a" "b";
                 CallSendLocalNotification "c" "d"]
                init_world)) <= 1.
Proof. vm_compute. lia. Qed.

(** C6 (as amended).  The module keeps no handle: every call of
    [sendLocalNotification] or [scheduleNotification] on a native platform
    executes the [require] once more, and on web it is never executed. *)
Theorem require_executes_once_per_native_call (h : Host) (acts : list Action) :
  require_calls (trace (run h acts init_world)) =
  (if on_web h then 0 else length (filter is_call acts)).
Proof.
  rewrite require_per_call. reflexivity.
Qed.

Section Retry.

Variable h : Host.

(** With the flag unset, an operation on a native platform whose module
    resolves makes one registration call, and the flag afterwards tells
    whether that call returned. *)
Lemma registration_attempted (a : Action) (n : Handle) (w : World) :
  on_web h = false ->
  is_call a = true ->
  notificationHandlerInitialized w = false ->
  require_expo_notifications h (trace w) = Returns (Some n) ->
  let w' := snd (step h a w) in
  let answer :=
    setNotificationHandler h n foreground_behavior
      (trace w ++ [EvRequire (Returns (Some n))]) in
  registration_calls (new_events w w') = 1 /\
  (answer = Returns tt -> notificationHandlerInitialized w' = true) /\
  (forall e, answer = Throws e -> notificationHandlerInitialized w' = false).
Proof.
  destruct w as [flag tr tm]. cbn [trace notificationHandlerInitialized].
  intros Hweb Hcall -> Hreq. cbv zeta.
  destruct a as [t b | t b s | k]; [| | discriminate]; unfold step.
  - unfold_service. step_with Hweb. step_with Hreq. step_with Hweb.
    cbn [orb].
    destruct (setNotificationHandler _ _ _ _) as [[] | e0] eqn:E;
      split_on_answers; read_log;
      (split; [reflexivity | split; [intros F | intros e1 F]]);
      reflexivity || discriminate.
  - unfold_service. step_with Hweb. step_with Hreq. step_with Hweb.
    cbn [orb].
    destruct (setNotificationHandler _ _ _ _) as [[] | e0] eqn:E;
      split_on_answers; read_log;
      (split; [reflexivity | split; [intros F | intros e1 F]]);
      reflexivity || discriminate.
Qed.

End Retry.

(** C9.  The flag goes from unset to set only in an operation in which a
    [setNotificationHandler] call returned.  On a native platform whose
    module resolves, an operation that finds the flag unset makes the
    registration call; if that call throws, the flag is still unset
    afterwards and the next operation makes the registration call again. *)
Theorem flag_set_only_by_returning_registration
    (h : Host) (a : Action) (w : World) :
  is_call a = true ->
  notificationHandlerInitialized w = false ->
  let w' := snd (step h a w) in
  (notificationHandlerInitialized w' = true ->
     successful_registrations (new_events w w') = 1) /\
  (on_web h = false ->
   forall n : Handle,
     require_expo_notifications h (trace w) = Returns (Some n) ->
     registration_calls (new_events w w') = 1 /\
     forall e : JsError,
       setNotificationHandler h n foreground_behavior
         (trace w ++ [EvRequire (Returns (Some n))]) = Throws e ->
       notificationHandlerInitialized w' = false /\
       forall (a' : Action) (n' : Handle),
         is_call a' = true ->
         require_expo_notifications h (trace w') = Returns (Some n') ->
         registration_calls (new_events w' (snd (step h a' w'))) = 1).
Proof.
  intros Hcall Hflag. cbv zeta. split.
  - intros Hset. destruct (step_effect h a w) as (_ & S & _).
    rewrite S, Hflag, Hset. reflexivity.
  - intros Hweb n Hreq.
    destruct (registration_attempted h a n w Hweb Hcall Hflag Hreq)
      as (R & _ & T).
    split; [exact R |]. intros e He. specialize (T e He).
    split; [exact T |]. intros a' n' Hcall' Hreq'.
    apply (registration_attempted h a' n' _ Hweb Hcall' T Hreq').
Qed.

Lemma flag_set_only_by_returning_registration_in_expo_go :
  let w' := snd (step Hosts.expo_go (CallSendLocalNotification "a" "b") init_world) in
  (notificationHandlerInitialized w' = true ->
     successful_registrations (new_events init_world w') = 1) /\
  (on_web Hosts.expo_go = false ->
   forall n : Handle,
     require_expo_notifications Hosts.expo_go (trace init_world) = Returns (Some n) ->
     registration_calls (new_events init_world w') = 1 /\
     forall e : JsError,
       setNotificationHandler Hosts.expo_go n foreground_behavior
         (trace init_world ++ [EvRequire (Returns (Some n))]) = Throws e ->
       notificationHandlerInitialized w' = false /\
       forall (a' : Action) (n' : Handle),
         is_call a' = true ->
         require_expo_notifications Hosts.expo_go (trace w') = Returns (Some n') ->
         registration_calls (new_events w' (snd (step Hosts.expo_go a' w'))) = 1).
Proof.
  apply (flag_set_only_by_returning_registration Hosts.expo_go
           (CallSendLocalNotification "a" "b") init_world); reflexivity.
Defined.
(** ** Web *)

(** Follow the web path up to the first read of the permission. *)
Ltac web_path Hweb Hsup Hp :=
  unfold_service; step_with Hweb; step_with Hsup; step_with Hp.

Ltac finish_web := cbn; split_on_answers; read_log; reflexivity.

Ltac split_goal := repeat match goal with |- _ /\ _ => split end.

(** C7.  On web, [sendLocalNotification] without the browser Notification
    API logs the warning and does nothing else.  With the API, it requests
    the permission exactly when the permission reads ['default'], first of
    all, and reads the permission again after the answer; if it then reads
    ['granted'], one notification is constructed, with the given title and
    body and no icon; otherwise nothing is constructed and the warning is
    logged. *)
Theorem sendLocalNotification_on_web
    (h : Host) (title body : string) (w : World) :
  on_web h = true ->
  let w' := snd (sendLocalNotification h title body w) in
  let d := new_events w w' in
  let permission := Notification_permission h (trace w) in
  let permission' := Notification_permission h (log_after_permission_request h w) in
  (window_has_Notification h (trace w) = false ->
     w' = log (EvWarn WARN_NOT_SUPPORTED None) w) /\
  (window_has_Notification h (trace w) = true ->
     (permission = "default" ->
        hd_error d =
          Some (EvRequestPermission (Notification_requestPermission h (trace w))) /\
        permission_requests d = 1) /\
     (permission <> "default" -> permission_requests d = 0) /\
     (permission_request_returned h w ->
      permission' = "granted" ->
      display_calls d = [(title, {| opt_body := body; opt_icon := None |})]) /\
     (permission_request_returned h w ->
      permission' <> "granted" ->
      display_calls d = [] /\ warnings d = [(WARN_PERMISSION_DENIED, None)])).
Proof.
  destruct w as [flag tr tm]. intros Hweb. cbv zeta.
  unfold log_after_permission_request, permission_request_returned.
  cbn [trace]. split; intros Hsup.
  - unfold_service. step_with Hweb. step_with Hsup. reflexivity.
  - destruct (Notification_permission h tr =? "default") eqn:Hp.
    + pose proof (proj1 (String.eqb_eq _ _) Hp) as Hdefault.
      destruct (Notification_requestPermission h tr) as [[] | e] eqn:Hr;
        split_goal.
      * intros _. split; web_path Hweb Hsup Hp; step_with Hr; now finish_web.
      * intros F. contradiction.
      * intros _ Hg. web_path Hweb Hsup Hp. step_with Hr. step_with Hg.
        now finish_web.
      * intros _ Hn. apply String.eqb_neq in Hn.
        split; web_path Hweb Hsup Hp; step_with Hr; step_with Hn;
          now finish_web.
      * intros _. split; web_path Hweb Hsup Hp; step_with Hr; now finish_web.
      * intros F. contradiction.
      * intros [F | F]; [contradiction | discriminate].
      * intros [F | F]; [contradiction | discriminate].
    + pose proof (proj1 (String.eqb_neq _ _) Hp) as Hdecided.
      split_goal.
      * intros F. contradiction.
      * intros _. web_path Hweb Hsup Hp. now finish_web.
      * intros _ Hg. web_path Hweb Hsup Hp. step_with Hg. now finish_web.
      * intros _ Hn. apply String.eqb_neq in Hn.
        split; web_path Hweb Hsup Hp; step_with Hn; now finish_web.
Qed.


Lemma sendLocalNotification_on_web_in_fresh_browser :
  display_calls
    (new_events init_world
       (snd (sendLocalNotification Hosts.fresh_browser "Hello" "World"
               init_world))) =
  [("Hello", {| opt_body := "World"; opt_icon := None |})].
Proof.
  destruct (sendLocalNotification_on_web Hosts.fresh_browser "Hello" "World"
              init_world eq_refl) as [_ S].
  destruct (S eq_refl) as (_ & _ & G & _).
  apply G; [right; reflexivity | reflexivity].
Defined.

(** The timer armed last is the last of the pending ones. *)
Lemma timer_armed_last (A : Type) (l : list A) (x : A) :
  nth_error (l ++ [x]) (length l) = Some x /\
  firstn (length l) (l ++ [x]) ++ skipn (S (length l)) (l ++ [x]) = l.
Proof.
  induction l as [| y l [IH1 IH2]]; simpl; [split; reflexivity |].
  split; [exact IH1 | f_equal; exact IH2].
Qed.

(** C8.  On web, [scheduleNotification] arms one timer of
    [seconds * 1000] milliseconds and returns nothing but [undefined]; no
    notification is constructed by the call.  Firing the timer runs
    [sendWebNotification] with the same title and body, which is what
    [sendLocalNotification] runs on web. *)
Theorem scheduleNotification_on_web_arms_timer
    (h : Host) (title body : string) (seconds : float) (w : World) :
  on_web h = true ->
  let ms := PrimFloat.mul seconds 1000%float in
  let cb := SendWebCallback title body in
  let armed :=
    {| notificationHandlerInitialized := notificationHandlerInitialized w;
       trace := trace w ++ [EvSetTimeout cb ms];
       timers := timers w ++ [(ms, cb)] |} in
  scheduleNotification h title body seconds w = (Returns tt, armed) /\
  display_calls (new_events w armed) = [] /\
  step h (FireTimer (length (timers w))) armed =
    sendWebNotification h title body
      {| notificationHandlerInitialized := notificationHandlerInitialized w;
         trace := trace w ++ [EvSetTimeout cb ms];
         timers := timers w |} /\
  (forall w0 : World,
     run_callback h cb w0 = sendWebNotification h title body w0 /\
     sendLocalNotification h title body w0 = sendWebNotification h title body w0).
Proof.
  intros Hweb. cbv zeta. repeat split.
  - unfold scheduleNotification, setTimeout. rewrite Hweb. reflexivity.
  - read_log. reflexivity.
  - unfold step, drop_timer. cbn [timers trace notificationHandlerInitialized].
    destruct (timer_armed_last _ (timers w)
                (PrimFloat.mul seconds 1000%float, SendWebCallback title body))
      as [-> ->].
    reflexivity.
  - unfold sendLocalNotification. rewrite Hweb. reflexivity.
Qed.

Lemma scheduleNotification_on_web_arms_timer_in_fresh_browser :
  scheduleNotification Hosts.fresh_browser "Hello" "World" 5%float init_world =
    (Returns tt,
     {| notificationHandlerInitialized := false;
        trace := [EvSetTimeout (SendWebCallback "Hello" "World") 5000%float];
        timers := [(5000%float, SendWebCallback "Hello" "World")] |}).
Proof.
  apply (scheduleNotification_on_web_arms_timer Hosts.fresh_browser
           "Hello" "World" 5%float init_world eq_refl).
Defined.

(** C10.  On web, what [scheduleNotification] returns and does is the same
    whatever the browser supports or permits: it arms the timer and returns,
    having called nothing of the Notification API and logged no warning. *)
Theorem scheduleNotification_on_web_ignores_browser
    (h1 h2 : Host) (title body : string) (seconds : float) (w : World) :
  on_web h1 = true ->
  on_web h2 = true ->
  let r := scheduleNotification h1 title body seconds w in
  r = scheduleNotification h2 title body seconds w /\
  fst r = Returns tt /\
  new_events w (snd r) =
    [EvSetTimeout (SendWebCallback title body)
       (PrimFloat.mul seconds 1000%float)] /\
  api_calls (new_events w (snd r)) = [] /\
  warnings (new_events w (snd r)) = [].
Proof.
  intros H1 H2. cbv zeta.
  unfold scheduleNotification, setTimeout. rewrite H1, H2.
  repeat split; read_log; reflexivity.
Qed.

Lemma scheduleNotification_on_web_ignores_browser_support :
  let r := scheduleNotification Hosts.old_browser "Hello" "World" 5%float init_world in
  r = scheduleNotification Hosts.blocked_browser "Hello" "World" 5%float init_world /\
  fst r = Returns tt /\
  new_events init_world (snd r) =
    [EvSetTimeout (SendWebCallback "Hello" "World")
       (PrimFloat.mul 5%float 1000%float)] /\
  api_calls (new_events init_world (snd r)) = [] /\
  warnings (new_events init_world (snd r)) = [].
Proof.
  apply (scheduleNotification_on_web_ignores_browser Hosts.old_browser
           Hosts.blocked_browser "Hello" "World" 5%float init_world);
    reflexivity.
Defined.

(** * Further properties of the module *)

(** Run one action from [w] and reduce the goal to the host's answers. *)
Ltac run_step w a :=
  destruct w as [flag tr tm];
  destruct a as [t b | t b s | k]; unfold step;
  [ | | cbn [timers]; destruct (nth_error tm k) as [[ms [t b]] |] ];
  unfold_service; cbn [trace notificationHandlerInitialized timers fst snd];
  split_on_answers; read_log.

(** ** What one operation can do *)

Section Operation.

Variable h : Host.

(** X1.  Nothing is retried: whatever the host answers, one operation (or
    one timer firing) executes the [require] at most once and makes each
    call of the notification API at most once, and logs at most one
    warning. *)
Theorem each_call_made_at_most_once (a : Action) (w : World) :
  let d := new_events w (snd (step h a w)) in
  require_calls d <= 1 /\
  registration_calls d <= 1 /\
  native_permission_requests d <= 1 /\
  length (schedule_calls d) <= 1 /\
  permission_requests d <= 1 /\
  length (display_calls d) <= 1 /\
  length (warnings d) <= 1.
Proof.
  cbv zeta. run_step w a; cbn; repeat split; lia.
Qed.

(** The log only grows. *)
Lemma step_extends_log (a : Action) (w : World) :
  trace (snd (step h a w)) = trace w ++ new_events w (snd (step h a w)).
Proof.
  exact (proj1 (step_effect h a w)).
Qed.

(** On web an action touches neither the module's flag nor the native
    module. *)
Lemma step_on_web (a : Action) (w : World) :
  on_web h = true ->
  let w' := snd (step h a w) in
  filter is_native_call (new_events w w') = [] /\
  notificationHandlerInitialized w' = notificationHandlerInitialized w.
Proof.
  intros Hweb. cbv zeta. revert Hweb.
  run_step w a; intros Hweb; try discriminate; split; reflexivity.
Qed.

(** On a native platform an action arms no timer and calls nothing of the
    browser; with no timer pending, firing one does nothing. *)
Lemma step_on_native (a : Action) (w : World) :
  on_web h = false ->
  timers w = [] ->
  let w' := snd (step h a w) in
  filter is_browser_call (new_events w w') = [] /\ timers w' = [].
Proof.
  destruct w as [flag tr tm]. cbn [timers]. intros Hweb ->. cbv zeta.
  destruct a as [t b | t b s | k]; unfold step.
  - unfold_service. step_with Hweb. split_on_answers; read_log;
      split; reflexivity.
  - unfold_service. step_with Hweb. split_on_answers; read_log;
      split; reflexivity.
  - cbn [timers]. destruct k; cbn [nth_error]; read_log; split; reflexivity.
Qed.

End Operation.

(** ** Platform isolation over a process lifetime *)

(** X2.  On web the expo-notifications module is never touched: over any
    process lifetime there is no [require], no handler registration, no
    native permission request and no schedule call, and the flag
    [notificationHandlerInitialized] is never set. *)
Theorem web_never_touches_native_module (h : Host) (acts : list Action) :
  on_web h = true ->
  filter is_native_call (trace (run h acts init_world)) = [] /\
  notificationHandlerInitialized (run h acts init_world) = false.
Proof.
  intros Hweb.
  assert (G : forall w,
             filter is_native_call (trace w) = [] ->
             notificationHandlerInitialized w = false ->
             filter is_native_call (trace (run h acts w)) = [] /\
             notificationHandlerInitialized (run h acts w) = false).
  { induction acts as [| a acts IH]; intros w N F; simpl; [now split |].
    destruct (step_on_web h a w Hweb) as [N' F'].
    apply IH.
    - rewrite step_extends_log, filter_app, N, N'. reflexivity.
    - rewrite F'. exact F. }
  apply G; reflexivity.
Qed.

Lemma web_never_touches_native_module_in_fresh_browser :
  filter is_native_call
    (trace (run Hosts.fresh_browser
              [CallScheduleNotification "a" "b" 2%float;
               CallSendLocalNotification "c" "d"; FireTimer 0]
              init_world)) = [] /\
  notificationHandlerInitialized
    (run Hosts.fresh_browser
       [CallScheduleNotification "a" "b" 2%float;
        CallSendLocalNotification "c" "d"; FireTimer 0]
       init_world) = false.
Proof.
  apply (web_never_touches_native_module Hosts.fresh_browser
           [CallScheduleNotification "a" "b" 2%float;
            CallSendLocalNotification "c" "d"; FireTimer 0]).
  reflexivity.
Defined.

(** X3.  On a native platform the browser is never touched: over any
    process lifetime there is no browser permission request, no
    [Notification] constructed and no [setTimeout], so no timer is ever
    pending. *)
Theorem native_never_touches_browser (h : Host) (acts : list Action) :
  on_web h = false ->
  filter is_browser_call (trace (run h acts init_world)) = [] /\
  timers (run h acts init_world) = [].
Proof.
  intros Hweb.
  assert (G : forall w,
             filter is_browser_call (trace w) = [] ->
             timers w = [] ->
             filter is_browser_call (trace (run h acts w)) = [] /\
             timers (run h acts w) = []).
  { induction acts as [| a acts IH]; intros w B T; simpl; [now split |].
    destruct (step_on_native h a w Hweb T) as [B' T'].
    apply IH.
    - rewrite step_extends_log, filter_app, B, B'. reflexivity.
    - exact T'. }
  apply G; reflexivity.
Qed.

Lemma native_never_touches_browser_on_device :
  filter is_browser_call
    (trace (run Hosts.device
              [CallScheduleNotification "a" "b" 2%float; FireTimer 0;
               CallSendLocalNotification "c" "d"]
              init_world)) = [] /\
  timers
    (run Hosts.device
       [CallScheduleNotification "a" "b" 2%float; FireTimer 0;
        CallSendLocalNotification "c" "d"]
       init_world) = [].
Proof.
  apply (native_never_touches_browser Hosts.device
           [CallScheduleNotification "a" "b" 2%float; FireTimer 0;
            CallSendLocalNotification "c" "d"]).
  reflexivity.
Defined.


(** ** What is registered, and when a notification is scheduled *)

Section Order.

Variable h : Host.

Lemma registered_behaviors_app (l1 l2 : list Event) :
  registered_behaviors (l1 ++ l2) =
  registered_behaviors l1 ++ registered_behaviors l2.
Proof.
  induction l1 as [| e l1 IH]; simpl; [reflexivity |].
  destruct e; simpl; rewrite IH; reflexivity.
Qed.

Lemma step_registers_foreground (a : Action) (w : World) :
  let d := new_events w (snd (step h a w)) in
  registered_behaviors d = repeat foreground_behavior (registration_calls d).
Proof.
  cbv zeta. run_step w a; reflexivity.
Qed.



End Order.

(** X4.  Over any process lifetime, every handler the module registers is
    the same one: it resolves to play the sound, not set the badge, show
    the banner and show in the list. *)
Theorem every_registration_is_foreground (h : Host) (acts : list Action) :
  registered_behaviors (trace (run h acts init_world)) =
  repeat
    {| shouldPlaySound := true;
       shouldSetBadge := false;
       shouldShowBanner := true;
       shouldShowList := true |}
    (registration_calls (trace (run h acts init_world))).
Proof.
  change {| shouldPlaySound := true; shouldSetBadge := false;
            shouldShowBanner := true; shouldShowList := true |}
    with foreground_behavior.
  assert (G : forall w,
             registered_behaviors (trace w) =
               repeat foreground_behavior (registration_calls (trace w)) ->
             registered_behaviors (trace (run h acts w)) =
               repeat foreground_behavior
                 (registration_calls (trace (run h acts w)))).
  { induction acts as [| a acts IH]; intros w R; simpl; [exact R |].
    apply IH.
    rewrite step_extends_log, registered_behaviors_app, registration_calls_app,
      repeat_app, R, step_registers_foreground.
    reflexivity. }
  apply G. reflexivity.
Qed.



(** ** Where the text of a notification comes from *)

Section Text.

Variable h : Host.

Lemma schedule_calls_app (l1 l2 : list Event) :
  schedule_calls (l1 ++ l2) = schedule_calls l1 ++ schedule_calls l2.
Proof.
  induction l1 as [| e l1 IH]; simpl; [reflexivity |].
  destruct e; simpl; rewrite IH; reflexivity.
Qed.

Lemma display_calls_app (l1 l2 : list Event) :
  display_calls (l1 ++ l2) = display_calls l1 ++ display_calls l2.
Proof.
  induction l1 as [| e l1 IH]; simpl; [reflexivity |].
  destruct e; simpl; rewrite IH; reflexivity.
Qed.

Lemma In_without_nth (A : Type) (k : nat) (l : list A) (x : A) :
  In x (firstn k l ++ skipn (S k) l) -> In x l.
Proof.
  revert l. induction k as [| k IH]; intros [| y l]; simpl; intros H;
    try contradiction.
  - right. exact H.
  - destruct H as [H | H]; [left; exact H | right; apply IH; exact H].
Qed.

Lemma texts_from_more (seen more : list (string * string)) (w : World) :
  texts_from seen w -> texts_from (seen ++ more) w.
Proof.
  intros (S & D & T). repeat split.
  - eapply Forall_impl; [| exact S]. intros c H. apply in_or_app. now left.
  - eapply Forall_impl; [| exact D]. intros c [H I]. split; [| exact I].
    apply in_or_app. now left.
  - eapply Forall_impl; [| exact T]. intros c H. apply in_or_app. now left.
Qed.

(** The web path displays the text it is given, without an icon, and arms
    nothing. *)
Lemma sendWebNotification_text (title body : string) (w : World) :
  let w' := snd (sendWebNotification h title body w) in
  schedule_calls (new_events w w') = [] /\
  Forall (fun c => c = (title, {| opt_body := body; opt_icon := None |}))
    (display_calls (new_events w w')) /\
  timers w' = timers w /\
  trace w' = trace w ++ new_events w w'.
Proof.
  cbv zeta. destruct w as [flag tr tm].
  unfold_service; cbn [trace notificationHandlerInitialized timers fst snd];
    split_on_answers; read_log; rewrite ?app_nil_r;
    repeat split; repeat constructor.
Qed.

Lemma step_keeps_texts (a : Action) (seen : list (string * string)) (w : World) :
  texts_from seen w -> texts_from (seen ++ requested a) (snd (step h a w)).
Proof.
  intros I. apply (texts_from_more seen (requested a)) in I.
  assert (R : incl (requested a) (seen ++ requested a))
    by (intros x Hx; apply in_or_app; now right).
  revert I R. generalize (seen ++ requested a). intros known (S & D & T) R.
  destruct a as [t b | t b s | k]; unfold step.
  - assert (K : In (t, b) known) by (apply R; now left).
    unfold sendLocalNotification. destruct (on_web h) eqn:Hweb.
    + destruct (sendWebNotification_text t b w) as (S' & D' & T' & L).
      unfold texts_from.
      rewrite L, schedule_calls_app, display_calls_app, S', T', app_nil_r.
      repeat split; [exact S | | exact T].
      apply Forall_app. split; [exact D |].
      eapply Forall_impl; [| exact D']. intros c ->. now split.
    + destruct w as [flag tr tm]. unfold texts_from in *.
      cbn [trace timers] in *.
      unfold_service. step_with Hweb.
      split_on_answers; cbn [trace timers];
        rewrite ?schedule_calls_app, ?display_calls_app; cbn;
        rewrite ?app_nil_r;
        repeat split; try assumption;
        apply Forall_app; split; try assumption; repeat constructor; exact K.
  - assert (K : In (t, b) known) by (apply R; now left).
    destruct w as [flag tr tm]. unfold texts_from in *.
    cbn [trace timers] in *.
    unfold_service.
    split_on_answers; cbn [trace timers];
      rewrite ?schedule_calls_app, ?display_calls_app; cbn;
      rewrite ?app_nil_r;
      repeat split; try assumption;
      apply Forall_app; split; try assumption; repeat constructor; exact K.
  - destruct (nth_error (timers w) k) as [[ms [t b]] |] eqn:Hk;
      [| now repeat split].
    assert (K : In (t, b) known).
    { apply nth_error_In in Hk.
      rewrite Forall_forall in T. exact (T _ Hk). }
    unfold run_callback.
    destruct (sendWebNotification_text t b (drop_timer k w))
      as (S' & D' & T' & L).
    unfold texts_from.
    rewrite L, schedule_calls_app, display_calls_app, S', T', app_nil_r.
    cbn [drop_timer trace timers].
    repeat split; [exact S | |].
    + apply Forall_app. split; [exact D |].
      eapply Forall_impl; [| exact D']. intros c ->. now split.
    + apply Forall_forall. intros x Hx. apply In_without_nth in Hx.
      rewrite Forall_forall in T. exact (T _ Hx).
Qed.

End Text.

(** X6.  The module invents and alters no text: over any process lifetime,
    every notification scheduled or displayed, at once or by a timer,
    carries a title and a body that a caller passed together to
    [sendLocalNotification] or [scheduleNotification], and no display call
    sets an icon. *)
Theorem texts_come_from_callers (h : Host) (acts : list Action) :
  let final := trace (run h acts init_world) in
  Forall (fun c => In (scheduled_text c) (flat_map requested acts))
    (schedule_calls final) /\
  Forall (fun c => In (displayed_text c) (flat_map requested acts) /\
                   opt_icon (snd c) = None)
    (display_calls final).
Proof.
  cbv zeta.
  assert (G : forall seen w,
             texts_from seen w ->
             texts_from (seen ++ flat_map requested acts) (run h acts w)).
  { induction acts as [| a acts IH]; intros seen w I; simpl.
    - rewrite app_nil_r. exact I.
    - rewrite app_assoc. apply IH. apply step_keeps_texts. exact I. }
  destruct (G [] init_world) as (S & D & _).
  - repeat split; constructor.
  - split; assumption.
Qed.


(** ** Failures, one by one *)

(** Follow a native operation up to the permission request. *)
Ltac native_path Hweb Hreq :=
  unfold_service; step_with Hweb; step_with Hreq; step_with Hweb;
  cbn [orb].

(** X7.  With an expo-notifications that has no
    [SchedulableTriggerInputTypes], [scheduleNotification] asks for the
    permission and, once it is granted, fails on building the trigger: no
    schedule call is made and the one warning logged is the schedule
    failure. *)
Theorem missing_trigger_type_schedules_nothing
    (h : Host) (title body : string) (seconds : float) (n : Handle)
    (e : JsError) (w : World) :
  on_web h = false ->
  require_expo_notifications h (trace w) = Returns (Some n) ->
  requestPermissionsAsync h n (log_before_permission_request h n w) =
    Returns "granted" ->
  TIME_INTERVAL h n = Throws e ->
  let d := new_events w (snd (scheduleNotification h title body seconds w)) in
  native_permission_requests d = 1 /\
  schedule_calls d = [] /\
  warnings d = [(WARN_SCHEDULE_FAILED, None)].
Proof.
  destruct w as [flag tr tm]. intros Hweb Hreq Hperm Hty. cbv zeta.
  unfold log_before_permission_request in Hperm.
  cbn [trace notificationHandlerInitialized] in *.
  native_path Hweb Hreq.
  destruct flag; cbn [orb];
    [| destruct (setNotificationHandler _ _ _ _) eqn:E ];
    step_with Hperm; cbn; step_with Hty; read_log; repeat split.
Qed.

Lemma missing_trigger_type_schedules_nothing_on_legacy_module :
  let d :=
    new_events init_world
      (snd (scheduleNotification Hosts.legacy_module "Hello" "World" 5%float
              init_world)) in
  native_permission_requests d = 1 /\
  schedule_calls d = [] /\
  warnings d = [(WARN_SCHEDULE_FAILED, None)].
Proof.
  apply (missing_trigger_type_schedules_nothing Hosts.legacy_module
           "Hello" "World" 5%float 3 "TypeError" init_world);
    reflexivity.
Defined.

(** X8.  When the native permission request is rejected, neither operation
    makes a schedule call, and each logs its own fixed failure message;
    the rejection reason is not logged. *)
Theorem rejected_native_permission_request
    (h : Host) (title body : string) (seconds : float) (n : Handle)
    (e : JsError) (w : World) :
  on_web h = false ->
  require_expo_notifications h (trace w) = Returns (Some n) ->
  requestPermissionsAsync h n (log_before_permission_request h n w) =
    Throws e ->
  let d1 := new_events w (snd (sendLocalNotification h title body w)) in
  let d2 := new_events w (snd (scheduleNotification h title body seconds w)) in
  (schedule_calls d1 = [] /\ warnings d1 = [(WARN_SEND_FAILED, None)]) /\
  (schedule_calls d2 = [] /\ warnings d2 = [(WARN_SCHEDULE_FAILED, None)]).
Proof.
  destruct w as [flag tr tm]. intros Hweb Hreq Hperm. cbv zeta.
  unfold log_before_permission_request in Hperm.
  cbn [trace notificationHandlerInitialized] in *.
  split; native_path Hweb Hreq;
    (destruct flag; cbn [orb];
     [| destruct (setNotificationHandler _ _ _ _) eqn:E ]);
    step_with Hperm; read_log; repeat split.
Qed.

Lemma rejected_native_permission_request_on_device :
  let h := Hosts.native (Returns tt) (Throws "ERR_PERMISSIONS") (Returns tt) in
  let d1 := new_events init_world (snd (sendLocalNotification h "a" "b" init_world)) in
  let d2 :=
    new_events init_world (snd (scheduleNotification h "a" "b" 5%float init_world)) in
  (schedule_calls d1 = [] /\ warnings d1 = [(WARN_SEND_FAILED, None)]) /\
  (schedule_calls d2 = [] /\ warnings d2 = [(WARN_SCHEDULE_FAILED, None)]).
Proof.
  apply (rejected_native_permission_request
           (Hosts.native (Returns tt) (Throws "ERR_PERMISSIONS") (Returns tt))
           "a" "b" 5%float 7 "ERR_PERMISSIONS" init_world);
    reflexivity.
Defined.

(** X9.  When the permission is granted and the schedule call of
    [sendLocalNotification] is rejected, that call was made once, with the
    given title and body, and the one warning logged is the fixed send
    failure message, without the rejection reason. *)
Theorem rejected_schedule_call
    (h : Host) (title body : string) (n : Handle) (e : JsError) (w : World) :
  on_web h = false ->
  require_expo_notifications h (trace w) = Returns (Some n) ->
  requestPermissionsAsync h n (log_before_permission_request h n w) =
    Returns "granted" ->
  let request :=
    {| content := {| title := title; body := body |};
       trigger := TriggerNull |} in
  scheduleNotificationAsync h n request
    (log_before_permission_request h n w ++
       [EvRequestPermissionsAsync n (Returns "granted")]) = Throws e ->
  let d := new_events w (snd (sendLocalNotification h title body w)) in
  schedule_calls d = [(n, request)] /\
  warnings d = [(WARN_SEND_FAILED, None)] /\
  last_event d = Some (EvWarn WARN_SEND_FAILED None).
Proof.
  destruct w as [flag tr tm]. intros Hweb Hreq Hperm. cbv zeta.
  unfold log_before_permission_request in *.
  cbn [trace notificationHandlerInitialized] in *. intros Hsched.
  native_path Hweb Hreq.
  destruct flag; cbn [orb];
    [| destruct (setNotificationHandler _ _ _ _) eqn:E ];
    step_with Hperm; cbn; step_with Hsched; read_log; repeat split.
Qed.

Lemma rejected_schedule_call_on_failing_device :
  let request :=
    {| content := {| title := "Hello"; body := "World" |};
       trigger := TriggerNull |} in
  let d :=
    new_events init_world
      (snd (sendLocalNotification Hosts.failing_device "Hello" "World"
              init_world)) in
  schedule_calls d = [(7, request)] /\
  warnings d = [(WARN_SEND_FAILED, None)] /\
  last_event d = Some (EvWarn WARN_SEND_FAILED None).
Proof.
  apply (rejected_schedule_call Hosts.failing_device "Hello" "World" 7
           "ERR_NOTIFICATIONS" init_world);
    reflexivity.
Defined.


(** X10.  On web, when the permission is already granted and the
    [Notification] constructor throws, [sendLocalNotification] has asked
    nothing of the user, has called the constructor once, and logs the web
    failure message together with the thrown value. *)
Theorem throwing_constructor_is_logged
    (h : Host) (title body : string) (e : JsError) (w : World) :
  on_web h = true ->
  window_has_Notification h (trace w) = true ->
  Notification_permission h (trace w) = "granted" ->
  let options := {| opt_body := body; opt_icon := None |} in
  new_Notification h title options (trace w) = Throws e ->
  new_events w (snd (sendLocalNotification h title body w)) =
    [EvNewNotification title options (Throws e);
     EvWarn WARN_WEB_FAILED (Some e)].
Proof.
  destruct w as [flag tr tm]. cbn [trace]. intros Hweb Hsup Hperm. cbv zeta.
  intros Hnew.
  unfold_service. step_with Hweb. step_with Hsup. step_with Hperm. cbn.
  step_with Hperm. cbn. step_with Hnew. read_log. reflexivity.
Qed.

Lemma throwing_constructor_is_logged_in_browser :
  new_events init_world
    (snd (sendLocalNotification Hosts.illegal_constructor_browser
            "Hello" "World" init_world)) =
    [EvNewNotification "Hello" {| opt_body := "World"; opt_icon := None |}
       (Throws "Illegal constructor");
     EvWarn WARN_WEB_FAILED (Some "Illegal constructor")].
Proof.
  apply (throwing_constructor_is_logged Hosts.illegal_constructor_browser
           "Hello" "World" "Illegal constructor" init_world);
    reflexivity.
Defined.

(** X11.  On web, when the permission is undetermined and the permission
    request is rejected, [sendLocalNotification] does not read the
    permission again: nothing is constructed, whatever the permission has
    become, and the web failure message is logged with the rejection
    reason. *)
Theorem rejected_browser_permission_request
    (h : Host) (title body : string) (e : JsError) (w : World) :
  on_web h = true ->
  window_has_Notification h (trace w) = true ->
  Notification_permission h (trace w) = "default" ->
  Notification_requestPermission h (trace w) = Throws e ->
  new_events w (snd (sendLocalNotification h title body w)) =
    [EvRequestPermission (Throws e); EvWarn WARN_WEB_FAILED (Some e)].
Proof.
  destruct w as [flag tr tm]. cbn [trace]. intros Hweb Hsup Hperm Hask.
  unfold_service. step_with Hweb. step_with Hsup. step_with Hperm. cbn.
  step_with Hask. read_log. reflexivity.
Qed.

Lemma rejected_browser_permission_request_in_browser :
  new_events init_world
    (snd (sendLocalNotification Hosts.rejecting_browser "Hello" "World"
            init_world)) =
    [EvRequestPermission (Throws "AbortError");
     EvWarn WARN_WEB_FAILED (Some "AbortError")].
Proof.
  apply (rejected_browser_permission_request Hosts.rejecting_browser
           "Hello" "World" "AbortError" init_world);
    reflexivity.
Defined.

(** X12.  The web path constructs a notification only with the permission:
    if [sendWebNotification] made a display call, the browser has the
    Notification API, the permission request (if one was made) returned,
    and the permission read after it was ['granted']. *)
Theorem displays_only_when_granted
    (h : Host) (title body : string) (w : World) :
  display_calls (new_events w (snd (sendWebNotification h title body w))) <> [] ->
  window_has_Notification h (trace w) = true /\
  permission_request_returned h w /\
  Notification_permission h (log_after_permission_request h w) = "granted".
Proof.
  destruct w as [flag tr tm].
  unfold permission_request_returned, log_after_permission_request.
  cbn [trace].
  unfold_service. split_on_answers; read_log; intros F;
    try (exfalso; apply F; reflexivity);
    destruct_units;
    repeat match goal with
           | E : negb _ = false |- _ => apply negb_false_iff in E
           | E : (_ =? _) = true |- _ => apply String.eqb_eq in E
           | E : (_ =? _) = false |- _ => apply String.eqb_neq in E
           end;
    repeat split; auto.
Qed.

Lemma displays_only_when_granted_in_fresh_browser :
  window_has_Notification Hosts.fresh_browser (trace init_world) = true /\
  permission_request_returned Hosts.fresh_browser init_world /\
  Notification_permission Hosts.fresh_browser
    (log_after_permission_request Hosts.fresh_browser init_world) = "granted".
Proof.
  apply (displays_only_when_granted Hosts.fresh_browser "Hello" "World"
           init_world).
  cbn. discriminate.
Defined.


(** ** Permission and silence *)

Section Permission.

Variable h : Host.

Lemma native_permission_requests_app (l1 l2 : list Event) :
  native_permission_requests (l1 ++ l2) =
  native_permission_requests l1 + native_permission_requests l2.
Proof.
  unfold native_permission_requests. now rewrite filter_app, length_app.
Qed.

(** A call on a native platform whose module resolves asks for the
    permission once, whatever the flag and the registration did. *)
Lemma step_requests_permission (a : Action) (n : Handle) (w : World) :
  on_web h = false ->
  require_expo_notifications h (trace w) = Returns (Some n) ->
  native_permission_requests (new_events w (snd (step h a w))) =
    (if is_call a then 1 else 0).
Proof.
  destruct w as [flag tr tm]. cbn [trace]. intros Hweb Hreq.
  destruct a as [t b | t b s | k]; unfold step; cbn [is_call].
  - native_path Hweb Hreq. split_on_answers; read_log; reflexivity.
  - native_path Hweb Hreq. split_on_answers; read_log; reflexivity.
  - cbn [timers]. destruct (nth_error tm k) as [[ms [t b]] |];
      [| read_log; reflexivity].
    unfold_service. cbn [trace notificationHandlerInitialized timers fst snd].
    split_on_answers; read_log; reflexivity.
Qed.

End Permission.

(** X13.  A grant is not remembered: on a native platform whose module
    always resolves, over any process lifetime the number of
    [requestPermissionsAsync] calls equals the number of calls of
    [sendLocalNotification] and [scheduleNotification]. *)
Theorem permission_requested_on_every_call (h : Host) (acts : list Action) :
  on_web h = false ->
  (forall log, exists n, require_expo_notifications h log = Returns (Some n)) ->
  native_permission_requests (trace (run h acts init_world)) =
  length (filter is_call acts).
Proof.
  intros Hweb Hres.
  assert (G : forall w,
             native_permission_requests (trace (run h acts w)) =
             native_permission_requests (trace w) +
               length (filter is_call acts)).
  { induction acts as [| a acts IH]; intros w; simpl; [lia |].
    rewrite IH, step_extends_log, native_permission_requests_app.
    destruct (Hres (trace w)) as [n Hn].
    rewrite (step_requests_permission h a n w Hweb Hn).
    destruct (is_call a); simpl; lia. }
  rewrite G. reflexivity.
Qed.

Lemma permission_requested_on_every_call_on_device :
  native_permission_requests
    (trace (run Hosts.device
              [CallSendLocalNotification "a" "b";
               CallScheduleNotification "c" "d" 3%float;
               CallSendLocalNotification "e" "f"]
              init_world)) =
  length
    (filter is_call
       [CallSendLocalNotification "a" "b";
        CallScheduleNotification "c" "d" 3%float;
        CallSendLocalNotification "e" "f"]).
Proof.
  apply (permission_requested_on_every_call Hosts.device
           [CallSendLocalNotification "a" "b";
            CallScheduleNotification "c" "d" 3%float;
            CallSendLocalNotification "e" "f"]).
  - reflexivity.
  - intros log. exists 7. reflexivity.
Defined.

(** X14.  The only trace of a failure is the warning: whatever the host
    answers, [sendLocalNotification] and [scheduleNotification] log no
    warning exactly when the notification was handed to the platform, that
    is, when a schedule call or a [Notification] constructor returned or a
    timer was armed. *)
Theorem silent_exactly_when_handed_over
    (h : Host) (title body : string) (seconds : float) (w : World) :
  let d1 := new_events w (snd (sendLocalNotification h title body w)) in
  let d2 := new_events w (snd (scheduleNotification h title body seconds w)) in
  (warnings d1 = [] <-> existsb handed_over d1 = true) /\
  (warnings d2 = [] <-> existsb handed_over d2 = true).
Proof.
  cbv zeta. destruct w as [flag tr tm].
  split; unfold_service; split_on_answers; read_log; cbn;
    split; intros F; reflexivity || discriminate.
Qed.

End NotificationService.
